(** * core-js-101, src/04-date-tasks.js: date and time tasks

    A shallow embedding of the five exported functions

      parseDataFromRfc2822, parseDataFromIso8601, isLeapYear,
      timeSpanToString, angleBetweenClockHands

    together with the part of the ECMAScript [Date] object they call.

    Numbers.  A JavaScript Number is a binary64 value.  Three views of it
    are used, each where the source uses that kind of value:

    - time values and calendar fields are integral Numbers far below 2^53,
      on which [+], [-] and [%] are exact: they are kept in [Z], and
      [option Z] adds NaN as [None] (the time value of an invalid Date);
    - the clock angle mixes the constants 0.5 and Math.PI with small
      integers: it is computed on the primitive binary64 type [float];
    - the duration formatter divides, truncates and rounds: its Numbers are
      exact rationals ([Q], NaN added by [Number]); the rounding of a
      quotient to binary64 is not part of this model.

    The host's local time zone is a parameter [tz]: the value that
    [getTimezoneOffset()] reports, in minutes, constant over time. *)

From Stdlib Require Import ZArith QArith Qround Qabs Bool List Ascii String Lia.
From Stdlib Require Import Floats.
Import ListNotations.

Local Open Scope Z_scope.

(** ** Time values and the calendar (ECMA-262, Date objects) *)

Module Ecma.

Definition msPerSecond : Z := 1000.
Definition msPerMinute : Z := 60000.
Definition msPerHour : Z := 3600000.
Definition msPerDay : Z := 86400000.

Definition maxTime : Z := 8640000000000000.

Definition Day (t : Z) : Z := t / msPerDay.
Definition TimeWithinDay (t : Z) : Z := t mod msPerDay.

Definition DaysInYear (y : Z) : Z :=
  if negb (y mod 4 =? 0) then 365
  else if negb (y mod 100 =? 0) then 366
  else if negb (y mod 400 =? 0) then 365
  else 366.

Definition DayFromYear (y : Z) : Z :=
  365 * (y - 1970) + (y - 1969) / 4 - (y - 1901) / 100 + (y - 1601) / 400.

Definition TimeFromYear (y : Z) : Z := msPerDay * DayFromYear y.

(** The year of a day number: the largest [y] with [DayFromYear y <= d].
    The quotient by the mean year length is off by at most one. *)
Definition YearFromDay (d : Z) : Z :=
  let y := 1970 + (400 * d) / 146097 in
  if d <? DayFromYear y then y - 1
  else if DayFromYear (y + 1) <=? d then y + 1
  else y.

Definition YearFromTime (t : Z) : Z := YearFromDay (Day t).

Definition InLeapYear (t : Z) : Z :=
  if DaysInYear (YearFromTime t) =? 366 then 1 else 0.

Definition DayWithinYear (t : Z) : Z := Day t - DayFromYear (YearFromTime t).

(** Number of days of the year before the first of month [m] (0-based). *)
Definition DaysBeforeMonth (leap m : Z) : Z :=
  match m with
  | 0 => 0
  | 1 => 31
  | 2 => 59 + leap
  | 3 => 90 + leap
  | 4 => 120 + leap
  | 5 => 151 + leap
  | 6 => 181 + leap
  | 7 => 212 + leap
  | 8 => 243 + leap
  | 9 => 273 + leap
  | 10 => 304 + leap
  | 11 => 334 + leap
  | _ => 365 + leap
  end.

Definition MonthFromDayWithinYear (leap dwy : Z) : Z :=
  if dwy <? 31 then 0
  else if dwy <? 59 + leap then 1
  else if dwy <? 90 + leap then 2
  else if dwy <? 120 + leap then 3
  else if dwy <? 151 + leap then 4
  else if dwy <? 181 + leap then 5
  else if dwy <? 212 + leap then 6
  else if dwy <? 243 + leap then 7
  else if dwy <? 273 + leap then 8
  else if dwy <? 304 + leap then 9
  else if dwy <? 334 + leap then 10
  else 11.

Definition MonthFromTime (t : Z) : Z :=
  MonthFromDayWithinYear (InLeapYear t) (DayWithinYear t).

Definition DateFromTime (t : Z) : Z :=
  DayWithinYear t - DaysBeforeMonth (InLeapYear t) (MonthFromTime t) + 1.

Definition HourFromTime (t : Z) : Z := (t / msPerHour) mod 24.
Definition MinFromTime (t : Z) : Z := (t / msPerMinute) mod 60.

Definition MakeTime (hour min sec ms : Z) : Z :=
  hour * msPerHour + min * msPerMinute + sec * msPerSecond + ms.

(** [MakeDay year month date]: the day number of the first of the month
    [month mod 12] of the year [year + month / 12], plus [date - 1]. *)
Definition MakeDay (year month date : Z) : Z :=
  let ym := year + month / 12 in
  let mn := month mod 12 in
  let leap := if DaysInYear ym =? 366 then 1 else 0 in
  DayFromYear ym + DaysBeforeMonth leap mn + date - 1.

Definition MakeDate (day time : Z) : Z := day * msPerDay + time.

(** [TimeClip]: a time beyond 8.64e15 ms from the epoch is NaN. *)
Definition TimeClip (t : Z) : option Z :=
  if Z.abs t <=? maxTime then Some t else None.

End Ecma.

Import Ecma.

(** ** The Date object *)

(** A Date holds one slot, its time value: UTC milliseconds since the epoch,
    or NaN ([None]) for an invalid Date. *)
Record Date : Type := mkDate { DateValue : option Z }.

Section HostTimeZone.

(** [tz]: what [getTimezoneOffset()] reports, UTC minus local time in
    minutes. *)
Variable tz : Z.

Definition LocalTZA : Z := - tz * msPerMinute.
Definition LocalTime (t : Z) : Z := t + LocalTZA.
Definition UTC (t : Z) : Z := t - LocalTZA.

(** [new Date(value)] for a Number [value]. *)
Definition Date_of_value (value : option Z) : Date :=
  mkDate (match value with Some v => TimeClip v | None => None end).

(** [new Date(year, month, date, hours, minutes, seconds, ms)]: the
    arguments are local time; a year in 0..99 means 1900 + year. *)
Definition Date_of_fields (year month date hours minutes seconds ms : Z) : Date :=
  let yr := if (0 <=? year) && (year <=? 99) then 1900 + year else year in
  let finalDate := MakeDate (MakeDay yr month date) (MakeTime hours minutes seconds ms) in
  mkDate (TimeClip (UTC finalDate)).

Definition getTime (d : Date) : option Z := DateValue d.

(** [d.getTimezoneOffset()]: NaN on an invalid Date. *)
Definition getTimezoneOffset (d : Date) : option Z :=
  option_map (fun _ => tz) (DateValue d).

Definition getDate (d : Date) : option Z :=
  option_map (fun t => DateFromTime (LocalTime t)) (DateValue d).


Definition getFullYear (d : Date) : option Z :=
  option_map (fun t => YearFromTime (LocalTime t)) (DateValue d).

Definition getHours (d : Date) : option Z :=
  option_map (fun t => HourFromTime (LocalTime t)) (DateValue d).

Definition getMinutes (d : Date) : option Z :=
  option_map (fun t => MinFromTime (LocalTime t)) (DateValue d).



(** [d.setMonth(month)]: the Date after the call.  The day of the month is
    kept as a number, so a day the new month does not have runs over into
    the next month. *)
Definition setMonth (d : Date) (month : Z) : Date :=
  match DateValue d with
  | None => d
  | Some t0 =>
      let t := LocalTime t0 in
      let newDate :=
        MakeDate (MakeDay (YearFromTime t) month (DateFromTime t)) (TimeWithinDay t) in
      mkDate (TimeClip (UTC newDate))
  end.

(** [d.setDate(date)]: the Date after the call. *)
Definition setDate (d : Date) (date : Z) : Date :=
  match DateValue d with
  | None => d
  | Some t0 =>
      let t := LocalTime t0 in
      let newDate :=
        MakeDate (MakeDay (YearFromTime t) (MonthFromTime t) date) (TimeWithinDay t) in
      mkDate (TimeClip (UTC newDate))
  end.

(** [x === n] for a Number [x] and an integer literal [n]. *)
Definition strict_eq (x : option Z) (n : Z) : bool :=
  match x with
  | Some v => v =? n
  | None => false
  end.

(** ** isLeapYear *)

(** The function works on the Date object it is handed: the result pairs
    the returned boolean with the state of that object after the call.
    ([getDate] ignores the argument the source passes to it.) *)
Definition isLeapYear (date : Date) : bool * Date :=
  let date1 := setMonth date 1 in
  let date2 := setDate date1 29 in
  (strict_eq (getDate date2) 29, date2).

End HostTimeZone.

(** The Gregorian rule on a year number. *)
Definition gregorian_leap (y : Z) : bool :=
  (y mod 4 =? 0) && (negb (y mod 100 =? 0) || (y mod 400 =? 0)).

(** ** Strings *)

Local Open Scope string_scope.
Local Open Scope Z_scope.

(** The class [\w] of a regular expression without flags. *)
Definition isWordChar (c : ascii) : bool :=
  let n := nat_of_ascii c in
  ((48 <=? n) && (n <=? 57) || (65 <=? n) && (n <=? 90)
   || (97 <=? n) && (n <=? 122) || (n =? 95))%nat%bool.

Definition isDot (c : ascii) : bool := Ascii.eqb c ".".

(** The class [[\w.]]. *)
Definition isCodeChar (c : ascii) : bool := isWordChar c || isDot c.

Definition flush (cur : string) : list string :=
  match cur with
  | EmptyString => []
  | _ => [cur]
  end.

(** The maximal runs of characters of the class [p], left to right; [cur]
    is the run being read. *)
Fixpoint runs (p : ascii -> bool) (cur : string) (s : string) : list string :=
  match s with
  | EmptyString => flush cur
  | String c s' =>
      if p c then runs p (cur ++ String c EmptyString) s'
      else flush cur ++ runs p EmptyString s'
  end.

(** [s.match(/([\w.]+)/g)]: all matches, or null ([None]) when there is
    none. *)
Definition match_codes (s : string) : option (list string) :=
  match runs isCodeChar EmptyString s with
  | [] => None
  | l => Some l
  end.

(** [s.match(/\w/)]: the first word character, or null. *)
Fixpoint match_word (s : string) : option string :=
  match s with
  | EmptyString => None
  | String c s' => if isWordChar c then Some (String c EmptyString) else match_word s'
  end.

(** [s.indexOf(c)] for a one-character string [c]: -1 when absent. *)
Fixpoint indexOf (s : string) (c : ascii) : Z :=
  match s with
  | EmptyString => -1
  | String a s' =>
      if Ascii.eqb a c then 0
      else let i := indexOf s' c in if i =? -1 then -1 else i + 1
  end.

Fixpoint repeat_char (c : ascii) (n : nat) : string :=
  match n with
  | O => EmptyString
  | S k => String c (repeat_char c k)
  end.

(** [s.padStart(targetLength, '0')]. *)
Definition padStart (s : string) (targetLength : Z) : string :=
  repeat_char "0"%char (Z.to_nat (targetLength - Z.of_nat (String.length s))) ++ s.

Fixpoint drop (n : nat) (s : string) : string :=
  match n, s with
  | O, _ => s
  | S k, EmptyString => EmptyString
  | S k, String _ s' => drop k s'
  end.

(** [s.replace(pat, rep)] for a string pattern: the first occurrence of
    [pat] is replaced.  (The replacements made here hold digits, [.], [-]
    and the letters of NaN, none of which [replace] reads as a pattern.) *)
Fixpoint replace (s pat rep : string) : string :=
  if String.prefix pat s then rep ++ drop (String.length pat) s
  else match s with
       | EmptyString => EmptyString
       | String c s' => String c (replace s' pat rep)
       end.

Definition digit_char (d : Z) : ascii := ascii_of_nat (48 + Z.to_nat d).

(** The decimal digits of [n >= 0], most significant first; [fuel] bounds
    the number of digits. *)
Fixpoint digits (fuel : nat) (n : Z) (acc : string) : string :=
  match fuel with
  | O => acc
  | S k =>
      let acc' := String (digit_char (n mod 10)) acc in
      if n <? 10 then acc' else digits k (n / 10) acc'
  end.

Definition decimal (n : Z) : string :=
  digits (S (Z.to_nat (Z.log2 n))) n EmptyString.

(** ** Numbers of the formatter *)

Local Open Scope Q_scope.

Inductive Number : Type :=
| NaN
| Fin (q : Q).

Inductive Error : Type :=
| TypeError
| RangeError.

Inductive result (A : Type) : Type :=
| Ok (a : A)
| Throw (e : Error).

Arguments Ok {A} a.
Arguments Throw {A} e.

Definition bind {A B : Type} (r : result A) (k : A -> result B) : result B :=
  match r with
  | Ok a => k a
  | Throw e => Throw e
  end.

Notation "x <- r ;; k" := (bind r (fun x => k))
  (at level 61, r at next level, right associativity).

Definition Qtrunc (q : Q) : Z := Z.quot (Qnum q) (Zpos (Qden q)).

(** The remainder of [%]: it has the sign of the dividend. *)
Definition Qrem (x y : Q) : Q := x - y * inject_Z (Qtrunc (x / y)).

Definition num_div (x y : Number) : Number :=
  match x, y with
  | Fin a, Fin b => if Qeq_bool b 0 then NaN else Fin (a / b)
  | _, _ => NaN
  end.

Definition num_rem (x y : Number) : Number :=
  match x, y with
  | Fin a, Fin b => if Qeq_bool b 0 then NaN else Fin (Qrem a b)
  | _, _ => NaN
  end.

Definition num_mul (x y : Number) : Number :=
  match x, y with
  | Fin a, Fin b => Fin (a * b)
  | _, _ => NaN
  end.

Definition Math_trunc (x : Number) : Number :=
  match x with
  | Fin a => Fin (inject_Z (Qtrunc a))
  | NaN => NaN
  end.

Definition of_int (z : Z) : Number := Fin (inject_Z z).

Definition of_time (t : option Z) : Number :=
  match t with
  | Some z => of_int z
  | None => NaN
  end.

(** [x.toFixed(fd)].  The digits are those of the integer [n] for which
    [n / 10^fd - x] is closest to zero, the larger [n] on a tie.  A Number
    of 10^21 or more is printed by the method in exponent notation, which
    this model does not render: [parseTimeCode] only prints values below
    its [timeMax]. *)
Definition toFixed (x : Number) (fd : Z) : result string :=
  if ((fd <? 0) || (100 <? fd))%Z then Throw RangeError
  else
    match x with
    | NaN => Ok "NaN"
    | Fin q =>
        let s := if Qle_bool 0 q then "" else "-" in
        let a := Qabs q in
        if Qle_bool (inject_Z (10 ^ 21)) a then Ok (s ++ "1e+21")
        else
          let n := Qfloor (a * inject_Z (10 ^ fd) + (1 # 2)) in
          let m := decimal n in
          let f := Z.to_nat fd in
          let m :=
            match f with
            | O => m
            | _ =>
                let m := repeat_char "0"%char (S f - String.length m) ++ m in
                let k := String.length m in
                substring 0 (k - f) m ++ "." ++ substring (k - f) f m
            end in
          Ok (s ++ m)%string
    end.

(** ** timeSpanToString *)

Inductive TimeType : Type :=
| hour
| minute
| second.

(** [timeCodeDict[key]], the key being the result of [code.match(/\w/)]
    turned into a property name; a missing key gives undefined. *)
Definition timeCodeDict (key : option string) : option TimeType :=
  match key with
  | Some "H"%string => Some hour
  | Some "m"%string => Some minute
  | Some "s"%string => Some second
  | _ => None
  end.

(** [timeCoefficient[type]] and [timeMax[type]] as Numbers: undefined
    turns into NaN in the arithmetic that uses them. *)
Definition timeCoefficient (type : option TimeType) : Number :=
  match type with
  | Some hour => of_int 3600000
  | Some minute => of_int 60000
  | Some second => of_int 1000
  | None => NaN
  end.

Definition timeMax (type : option TimeType) : Number :=
  match type with
  | Some hour => of_int 24
  | Some minute => of_int 60
  | Some second => of_int 60
  | None => NaN
  end.

Record EncodedTime : Type := mkEncodedTime {
  code : string;
  type : option TimeType;
  length : Z;
  floatPoint : option Z;
  value : Number
}.

(** Truthiness of [floatPoint]: undefined and 0 are false. *)
Definition truthy (floatPoint : option Z) : bool :=
  match floatPoint with
  | Some i => negb (i =? 0)%Z
  | None => false
  end.

Definition parseTimeCode (time : Number) (code : string) : EncodedTime :=
  let type := timeCodeDict (match_word code) in
  let length := Z.of_nat (String.length code) in
  let floatPoint := indexOf code "." in
  let floatPoint := if (floatPoint =? -1)%Z then None else Some floatPoint in
  let pow := if truthy floatPoint then of_int (10 ^ length) else of_int 1 in
  let value := num_rem (num_div time (timeCoefficient type)) (timeMax type) in
  let value := num_div (Math_trunc (num_mul value pow)) pow in
  mkEncodedTime code type length floatPoint value.

(** The [toString] method of the object [parseTimeCode] returns. *)
Definition toString (this : EncodedTime) : result string :=
  s <- toFixed (value this)
         (match floatPoint this with
          | Some i => if truthy (floatPoint this) then (length this - i - 1)%Z else 0%Z
          | None => 0%Z
          end) ;;
  Ok (padStart s (length this)).

(** [data.reduce(f, init)] for a callback that may throw. *)
Fixpoint reduce {A B : Type} (f : B -> A -> result B) (data : list A) (init : B) : result B :=
  match data with
  | [] => Ok init
  | x :: rest => b <- f init x ;; reduce f rest b
  end.

(** [matches.map] on null throws a TypeError. *)
Definition formatTime (format : string) (time : Number) : result string :=
  match match_codes format with
  | None => Throw TypeError
  | Some matches =>
      let data := map (parseTimeCode time) matches in
      reduce (fun output timeObj =>
                s <- toString timeObj ;;
                Ok (replace output (code timeObj) s))
             data format
  end.

Definition num_sub (x y : option Z) : option Z :=
  match x, y with
  | Some a, Some b => Some (a - b)%Z
  | _, _ => None
  end.

Definition timeSpanToString (startDate endDate : Date) : result string :=
  formatTime "HH:mm:ss.sss" (of_time (num_sub (getTime endDate) (getTime startDate))).

(** ** angleBetweenClockHands *)

Local Open Scope Z_scope.

(** Integral Numbers: [+], [*] and [%] with NaN. *)
Definition int_add (x y : option Z) : option Z :=
  match x, y with
  | Some a, Some b => Some (a + b)
  | _, _ => None
  end.

Definition int_mul (x y : option Z) : option Z :=
  match x, y with
  | Some a, Some b => Some (a * b)
  | _, _ => None
  end.

Definition int_rem (x y : option Z) : option Z :=
  match x, y with
  | Some a, Some b => if b =? 0 then None else Some (Z.rem a b)
  | _, _ => None
  end.

(** The binary64 value of an integral Number (exact below 2^53). *)
Definition to_float (x : option Z) : float :=
  match x with
  | None => nan
  | Some z =>
      if z <? 0 then PrimFloat.opp (PrimFloat.of_uint63 (Uint63.of_Z (- z)))
      else PrimFloat.of_uint63 (Uint63.of_Z z)
  end.

Definition Math_PI : float := 0x1.921fb54442d18p+1%float.

Section Clock.

(** The ambient state the function reads: the host's time zone offset [tz]
    and the current time [now] of [new Date()]. *)
Variables tz now : Z.

Local Open Scope float_scope.

Definition degToRadians (deg : float) : float := (deg / 180) * Math_PI.

Definition delta (n max : float) : float := if n <=? max then n else max * 2 - n.

Definition angleBetweenClockHands (date : Date) : float :=
  let timezoneOffset := int_mul (getTimezoneOffset tz (mkDate (Some now))) (Some 60000%Z) in
  let dateObject := Date_of_value (int_add (getTime date) timezoneOffset) in

  let hourDegPerMinute := 0.5 in
  let minuteDegPerMinute := 6 in
  let clockwise := Some 12%Z in
  let minutesInHour := 60 in

  let hours := to_float (int_rem (getHours tz dateObject) clockwise) in
  let minutes := to_float (getMinutes tz dateObject) in

  let hourHandAngle := hourDegPerMinute * (minutesInHour * hours + minutes) in
  let minuteHandAngle := minuteDegPerMinute * minutes in

  let angleBetweenHands := abs (hourHandAngle - minuteHandAngle) in

  degToRadians (delta angleBetweenHands 180).

End Clock.

(** ** The two parsers *)

Section HostParser.

(** [Date.parse] is the host's: [host_parse s] is the time value of the
    date that [s] denotes, [None] when the host does not recognise [s] as a
    date.  The method returns NaN for such a string and never throws. *)
Variable host_parse : string -> option Z.




End HostParser.

(** ** Values used in the examples *)







(** ** Definitions used in the statements and the checks *)

(** 1 in a leap year, 0 otherwise. *)
Definition leap_flag (y : Z) : Z := if gregorian_leap y then 1 else 0.

(** A time value a Date can hold. *)
Definition in_range (t : Z) : Prop := Z.abs t <= maxTime.

(** [lo, lo + 1, ..., lo + n - 1]. *)
Fixpoint Zrange (lo : Z) (n : nat) : list Z :=
  match n with
  | O => []
  | S k => lo :: Zrange (lo + 1) k
  end.

(** The month and the day that two steps, February then the 29th, lead to
    from the day [dt] of a month, [l] being the leap flag of the year. *)
Definition february_29_check (l dt : Z) : bool :=
  let m := MonthFromDayWithinYear l (31 + dt - 1) in
  let k := DaysBeforeMonth l m + 29 - 1 in
  ((m =? 1) || (m =? 2))
  && (MonthFromDayWithinYear l k =? (if (l =? 1) && (dt <=? 29) then 1 else 2))
  && (k - DaysBeforeMonth l (MonthFromDayWithinYear l k) + 1
      =? (if (l =? 0) && (dt <=? 28) then 1 else 29)).

(** The rational that [parseTimeCode] computes for a finite time [q], a
    coefficient [c], a maximum [m] and a power [pow]. *)
Definition field_value (q : Q) (c m pow : Z) : Q :=
  (inject_Z (Qtrunc (Qrem (q / inject_Z c) (inject_Z m) * inject_Z pow)) / inject_Z pow)%Q.

Definition two_digits (n : Z) : string :=
  String (digit_char (n / 10)) (String (digit_char (n mod 10)) EmptyString).

Definition three_digits (n : Z) : string :=
  String (digit_char (n / 100)) (two_digits (n mod 100)).

Definition renders (r : result string) (s : string) : bool :=
  match r with
  | Ok s' => String.eqb s' s
  | Throw _ => false
  end.

Definition int_field_check (r : Z) : bool :=
  renders (s <- toFixed (Fin (inject_Z r)) 0 ;; Ok (padStart s 2)) (two_digits r).

Definition frac_field_check (r : Z) : bool :=
  renders (s <- toFixed (Fin (r # 1000)) 3 ;; Ok (padStart s 6))
          (two_digits (r / 1000) ++ "." ++ three_digits (r mod 1000)).

(** [c] does not occur in [s]. *)
Fixpoint avoids (c : ascii) (s : string) : bool :=
  match s with
  | EmptyString => true
  | String a s' => negb (Ascii.eqb a c) && avoids c s'
  end.

(** The angle as a function of the hour and the minute the clock shows. *)
Definition clock_angle (h m : Z) : float :=
  let hours := to_float (Some (Z.rem h 12)) in
  let minutes := to_float (Some m) in
  degToRadians (delta (abs (0.5 * (60 * hours + minutes) - 6 * minutes)) 180)%float.

(** [0 <= r <= Math.PI] on binary64. *)
Definition angle_in_range (r : float) : bool := ((0 <=? r) && (r <=? Math_PI))%float.

(** Every character of [s] satisfies [p]. *)
Fixpoint string_forallb (p : ascii -> bool) (s : string) : bool :=
  match s with
  | EmptyString => true
  | String a s' => p a && string_forallb p s'
  end.

(** The angle between the hands in half degrees, on integers: the hour
    hand is at [60 h + m] half degrees, the minute hand at [12 m]. *)
Definition half_degrees (h m : Z) : Z :=
  let a := Z.abs (60 * (h mod 12) - 11 * m) in Z.min a (720 - a).

Definition clock_angle_check (h m : Z) : bool :=
  PrimFloat.Leibniz.eqb (clock_angle h m)
    (degToRadians (to_float (Some (half_degrees h m)) / 2)%float)
  && Bool.eqb (PrimFloat.eqb (clock_angle h m) 0%float) ((h mod 12 =? 0) && (m =? 0))
  && Bool.eqb (PrimFloat.eqb (clock_angle h m) Math_PI) ((h mod 12 =? 6) && (m =? 0))
  && negb (PrimFloat.is_nan (clock_angle h m)).

(** * Facts *)

(** ** Bounded checks by evaluation *)

Lemma In_Zrange n : forall lo z, lo <= z < lo + Z.of_nat n -> In z (Zrange lo n).
Proof.
  induction n as [ | n IH]; intros lo z H; [ lia | ].
  cbn [Zrange]. destruct (Z.eq_dec lo z) as [E | N]; [ left; exact E | right ].
  apply IH. lia.
Qed.

Lemma forallb_Zrange (p : Z -> bool) lo n :
  forallb p (Zrange lo n) = true -> forall z, lo <= z < lo + Z.of_nat n -> p z = true.
Proof.
  intros H z Hz. rewrite forallb_forall in H. apply H, In_Zrange, Hz.
Qed.

(** ** The calendar *)

Ltac zdiv := Z.div_mod_to_equations.

Lemma DayFromYear_succ y : DayFromYear (y + 1) = DayFromYear y + DaysInYear y.
Proof.
  unfold DayFromYear, DaysInYear.
  repeat match goal with
         | |- context [negb (?a =? ?b)] => destruct (Z.eqb_spec a b); cbn [negb]
         end;
  zdiv; lia.
Qed.

Lemma DaysInYear_cases y : DaysInYear y = 365 \/ DaysInYear y = 366.
Proof.
  unfold DaysInYear.
  repeat match goal with |- context [if ?b then _ else _] => destruct b end; auto.
Qed.

Lemma DaysInYear_leap y : (DaysInYear y =? 366) = gregorian_leap y.
Proof.
  unfold DaysInYear, gregorian_leap.
  destruct (y mod 4 =? 0), (y mod 100 =? 0), (y mod 400 =? 0); reflexivity.
Qed.

Lemma DaysInYear_flag y : DaysInYear y = 365 + leap_flag y.
Proof.
  unfold leap_flag. rewrite <- DaysInYear_leap.
  destruct (DaysInYear_cases y) as [E | E]; rewrite E; reflexivity.
Qed.

Lemma leap_flag_range y : 0 <= leap_flag y <= 1.
Proof. unfold leap_flag. destruct (gregorian_leap y); lia. Qed.

Lemma leap_flag_eqb y :
  (leap_flag y =? 1) = gregorian_leap y /\ (leap_flag y =? 0) = negb (gregorian_leap y).
Proof. unfold leap_flag. destruct (gregorian_leap y); auto. Qed.

Lemma DayFromYear_mono y y' : y <= y' -> DayFromYear y <= DayFromYear y'.
Proof. unfold DayFromYear. intros. zdiv. lia. Qed.

(** [YearFromDay] is the year ECMA-262 defines: the one whose days
    include [d]. *)
Lemma YearFromDay_spec d :
  DayFromYear (YearFromDay d) <= d < DayFromYear (YearFromDay d + 1).
Proof.
  unfold YearFromDay.
  set (y := 1970 + 400 * d / 146097).
  assert (Hl : DayFromYear (y - 1) <= d) by (unfold DayFromYear, y; zdiv; lia).
  assert (Hu : d < DayFromYear (y + 2)) by (unfold DayFromYear, y; zdiv; lia).
  destruct (Z.ltb_spec d (DayFromYear y)).
  - replace (y - 1 + 1) with y by lia. lia.
  - destruct (Z.leb_spec (DayFromYear (y + 1)) d).
    + replace (y + 1 + 1) with (y + 2) by lia. lia.
    + lia.
Qed.

Lemma YearFromDay_unique d y :
  DayFromYear y <= d < DayFromYear (y + 1) -> YearFromDay d = y.
Proof.
  intros H. pose proof (YearFromDay_spec d) as S.
  destruct (Z.lt_trichotomy (YearFromDay d) y) as [L | [E | G]]; [ | exact E | ].
  - pose proof (DayFromYear_mono (YearFromDay d + 1) y ltac:(lia)). lia.
  - pose proof (DayFromYear_mono (y + 1) (YearFromDay d) ltac:(lia)). lia.
Qed.

Lemma TimeWithinDay_range t : 0 <= TimeWithinDay t < msPerDay.
Proof. unfold TimeWithinDay, msPerDay. zdiv. lia. Qed.

(** The fields of the [k]-th day (0-based) of the year [y]. *)
Lemma fields_of_year_day y k tod :
  0 <= k < DaysInYear y -> 0 <= tod < msPerDay ->
  let t := MakeDate (DayFromYear y + k) tod in
  YearFromTime t = y /\ DayWithinYear t = k /\
  InLeapYear t = leap_flag y /\ TimeWithinDay t = tod.
Proof.
  intros Hk Ht t.
  assert (HD : Day t = DayFromYear y + k).
  { unfold t, Day, MakeDate, msPerDay in *. zdiv. lia. }
  assert (HY : YearFromTime t = y).
  { unfold YearFromTime. rewrite HD. apply YearFromDay_unique.
    rewrite DayFromYear_succ. lia. }
  repeat split.
  - exact HY.
  - unfold DayWithinYear. rewrite HY, HD. lia.
  - unfold InLeapYear, leap_flag. rewrite HY, DaysInYear_leap. reflexivity.
  - unfold t, TimeWithinDay, MakeDate, msPerDay in *. zdiv. lia.
Qed.

Lemma calendar_of_year_day y k tod t :
  0 <= k < DaysInYear y -> 0 <= tod < msPerDay ->
  t = MakeDate (DayFromYear y + k) tod ->
  YearFromTime t = y /\ TimeWithinDay t = tod /\
  MonthFromTime t = MonthFromDayWithinYear (leap_flag y) k /\
  DateFromTime t =
    k - DaysBeforeMonth (leap_flag y) (MonthFromDayWithinYear (leap_flag y) k) + 1.
Proof.
  intros Hk Ht ->.
  destruct (fields_of_year_day y k tod Hk Ht) as (Y & K & L & T).
  unfold DateFromTime, MonthFromTime. rewrite K, L. auto.
Qed.

Lemma DayWithinYear_range t : 0 <= DayWithinYear t < DaysInYear (YearFromTime t).
Proof.
  unfold DayWithinYear, YearFromTime.
  pose proof (YearFromDay_spec (Day t)) as S. rewrite DayFromYear_succ in S. lia.
Qed.

Lemma DateFromTime_range t : 1 <= DateFromTime t <= 31.
Proof.
  pose proof (DayWithinYear_range t) as Hk.
  unfold DateFromTime, MonthFromTime, InLeapYear.
  destruct (DaysInYear_cases (YearFromTime t)) as [E | E]; rewrite E in *;
    cbn [Z.eqb Pos.eqb]; unfold MonthFromDayWithinYear;
    repeat match goal with |- context [?a <? ?b] => destruct (Z.ltb_spec a b) end;
    cbn; lia.
Qed.

Lemma MakeDay_in_year y m date :
  0 <= m < 12 ->
  MakeDay y m date = DayFromYear y + (DaysBeforeMonth (leap_flag y) m + date - 1).
Proof.
  intros Hm. unfold MakeDay, leap_flag.
  replace (m / 12) with 0 by (zdiv; lia).
  replace (m mod 12) with m by (zdiv; lia).
  rewrite Z.add_0_r, DaysInYear_leap. lia.
Qed.

Lemma february_29_arith l dt :
  0 <= l <= 1 -> 1 <= dt <= 31 ->
  let m := MonthFromDayWithinYear l (31 + dt - 1) in
  let k := DaysBeforeMonth l m + 29 - 1 in
  (m = 1 \/ m = 2) /\
  MonthFromDayWithinYear l k = (if (l =? 1) && (dt <=? 29) then 1 else 2) /\
  k - DaysBeforeMonth l (MonthFromDayWithinYear l k) + 1 =
    (if (l =? 0) && (dt <=? 28) then 1 else 29).
Proof.
  intros Hl Hdt m k.
  assert (A : forallb (fun l => forallb (february_29_check l) (Zrange 1 31)) (Zrange 0 2) = true)
    by (vm_compute; reflexivity).
  pose proof (forallb_Zrange _ _ _ (forallb_Zrange _ _ _ A l ltac:(lia)) dt ltac:(lia)) as C.
  unfold february_29_check in C. fold m k in C.
  apply andb_prop in C. destruct C as [C C3]. apply andb_prop in C. destruct C as [C1 C2].
  apply Z.eqb_eq in C2, C3. apply orb_prop in C1. rewrite !Z.eqb_eq in C1. auto.
Qed.

(** ** Date methods *)

Lemma LocalTime_UTC tz x : LocalTime tz (UTC tz x) = x.
Proof. unfold LocalTime, UTC. lia. Qed.

Lemma TimeClip_in_range t : in_range t -> TimeClip t = Some t.
Proof.
  unfold in_range, TimeClip. intros H. apply Z.leb_le in H. rewrite H. reflexivity.
Qed.

Lemma TimeClip_out_of_range t : ~ in_range t -> TimeClip t = None.
Proof.
  unfold in_range, TimeClip. intros H.
  destruct (Z.leb_spec (Z.abs t) maxTime); [ contradiction | reflexivity ].
Qed.

Lemma DateValue_clip x u : DateValue (mkDate (TimeClip x)) = Some u -> u = x.
Proof.
  unfold TimeClip. destruct (Z.abs x <=? maxTime); intros H.
  - injection H as <-. reflexivity.
  - discriminate H.
Qed.

Lemma setMonth_local tz d t0 m u :
  DateValue d = Some t0 ->
  DateValue (setMonth tz d m) = Some u ->
  LocalTime tz u =
    MakeDate (MakeDay (YearFromTime (LocalTime tz t0)) m (DateFromTime (LocalTime tz t0)))
             (TimeWithinDay (LocalTime tz t0)).
Proof.
  intros E H. unfold setMonth in H. rewrite E in H.
  apply DateValue_clip in H. rewrite H. apply LocalTime_UTC.
Qed.

Lemma setDate_local tz d t0 date u :
  DateValue d = Some t0 ->
  DateValue (setDate tz d date) = Some u ->
  LocalTime tz u =
    MakeDate (MakeDay (YearFromTime (LocalTime tz t0)) (MonthFromTime (LocalTime tz t0)) date)
             (TimeWithinDay (LocalTime tz t0)).
Proof.
  intros E H. unfold setDate in H. rewrite E in H.
  apply DateValue_clip in H. rewrite H. apply LocalTime_UTC.
Qed.

Lemma setDate_valid_inner tz d date u :
  DateValue (setDate tz d date) = Some u -> exists u0, DateValue d = Some u0.
Proof.
  destruct d as [[v |]]; intros H.
  - exists v. reflexivity.
  - discriminate H.
Qed.

(** ** isLeapYear *)

(** What [isLeapYear] returns and what it leaves in the Date, from the
    local calendar fields of the Date it is handed. *)
Lemma isLeapYear_fields tz d t0 b d' t' :
  DateValue d = Some t0 ->
  isLeapYear tz d = (b, d') ->
  DateValue d' = Some t' ->
  b = gregorian_leap (YearFromTime (LocalTime tz t0))
      || (29 <=? DateFromTime (LocalTime tz t0)) /\
  YearFromTime (LocalTime tz t') = YearFromTime (LocalTime tz t0) /\
  TimeWithinDay (LocalTime tz t') = TimeWithinDay (LocalTime tz t0) /\
  MonthFromTime (LocalTime tz t') =
    (if gregorian_leap (YearFromTime (LocalTime tz t0))
        && (DateFromTime (LocalTime tz t0) <=? 29)
     then 1 else 2) /\
  DateFromTime (LocalTime tz t') =
    (if negb (gregorian_leap (YearFromTime (LocalTime tz t0)))
        && (DateFromTime (LocalTime tz t0) <=? 28)
     then 1 else 29).
Proof.
  intros E0 H E'.
  unfold isLeapYear in H. injection H as Hb Hd.
  rewrite Hd in Hb. subst d'.
  destruct (setDate_valid_inner _ _ _ _ E') as (u1 & E1).
  pose proof (setMonth_local _ _ _ _ _ E0 E1) as L1.
  pose proof (setDate_local _ _ _ _ _ E1 E') as L2.
  unfold getDate in Hb. rewrite E' in Hb. cbn [option_map strict_eq] in Hb.
  remember (LocalTime tz t0) as t eqn:Et. remember (LocalTime tz u1) as n1 eqn:En1.
  remember (LocalTime tz t') as n2 eqn:En2. clear Et En1 En2 E0 E1 E'.
  pose proof (DateFromTime_range t) as Hdt.
  pose proof (TimeWithinDay_range t) as Htod.
  pose proof (DaysInYear_flag (YearFromTime t)) as HL.
  pose proof (leap_flag_range (YearFromTime t)) as Hl.
  destruct (leap_flag_eqb (YearFromTime t)) as [F1 F0].
  destruct (february_29_arith _ _ Hl Hdt) as (Hm & A2 & A3).
  rewrite F1 in A2. rewrite F0 in A3.
  rewrite MakeDay_in_year in L1 by lia. cbn [DaysBeforeMonth] in L1.
  assert (K1 : 0 <= 31 + DateFromTime t - 1 < DaysInYear (YearFromTime t)) by lia.
  destruct (calendar_of_year_day _ _ _ _ K1 Htod L1) as (Y1 & T1 & M1 & _).
  rewrite Y1, T1, M1 in L2.
  rewrite MakeDay_in_year in L2 by lia.
  assert (K : 0 <= DaysBeforeMonth (leap_flag (YearFromTime t))
                    (MonthFromDayWithinYear (leap_flag (YearFromTime t))
                       (31 + DateFromTime t - 1)) + 29 - 1 < DaysInYear (YearFromTime t)).
  { destruct Hm as [-> | ->]; cbn [DaysBeforeMonth]; lia. }
  destruct (calendar_of_year_day _ _ _ _ K Htod L2) as (Y2 & T2 & M2 & D2).
  rewrite A2 in M2. rewrite A3 in D2.
  repeat split; try assumption.
  rewrite <- Hb, D2.
  destruct (gregorian_leap (YearFromTime t)); cbn [negb andb orb];
    destruct (Z.leb_spec (DateFromTime t) 28); destruct (Z.leb_spec 29 (DateFromTime t));
    try lia; reflexivity.
Qed.




(** C1 (the code at the failing input): on 31 January 2015, local time of
    a host in UTC, [isLeapYear] returns true, whereas 2015 is not a leap
    year by the Gregorian rule: [setMonth(1)] turns the 31st of January
    into the 3rd of March, and the 29th of March exists. *)
Theorem isLeapYear_true_on_31_January_2015 :
  getFullYear 0 (Date_of_fields 0 2015 0 31 0 0 0 0) = Some 2015 /\
  gregorian_leap 2015 = false /\
  isLeapYear 0 (Date_of_fields 0 2015 0 31 0 0 0 0)
    = (true, Date_of_fields 0 2015 2 29 0 0 0 0).
Proof. vm_compute. auto. Qed.






(** X2: on the days 1 to 28 of any month, [isLeapYear] returns the
    Gregorian rule of the year of the Date. *)
Theorem isLeapYear_correct_until_28 tz d t0 b d' t' :
  DateValue d = Some t0 ->
  isLeapYear tz d = (b, d') ->
  DateValue d' = Some t' ->
  DateFromTime (LocalTime tz t0) <= 28 ->
  b = gregorian_leap (YearFromTime (LocalTime tz t0)).
Proof.
  intros E0 H E' Hd.
  rewrite (proj1 (isLeapYear_fields tz d t0 b d' t' E0 H E')).
  destruct (Z.leb_spec 29 (DateFromTime (LocalTime tz t0))); [ lia | ].
  apply orb_false_r.
Qed.

Lemma isLeapYear_correct_until_28_witness :
  DateFromTime (LocalTime 0 1421317800000) <= 28 /\
  false = gregorian_leap (YearFromTime (LocalTime 0 1421317800000)).
Proof.
  assert (H : DateFromTime (LocalTime 0 1421317800000) <= 28) by (vm_compute; discriminate).
  split; [ exact H | ].
  exact (isLeapYear_correct_until_28 0 (mkDate (Some 1421317800000)) 1421317800000 false
           (mkDate (Some 1425205800000)) 1425205800000 eq_refl eq_refl eq_refl H).
Defined.

(** X3: on an invalid Date, [isLeapYear] returns false and leaves the Date
    as it is. *)
Theorem isLeapYear_invalid_date tz d :
  DateValue d = None -> isLeapYear tz d = (false, d).
Proof.
  intros E. unfold isLeapYear, setDate, setMonth, getDate. rewrite E. rewrite E.
  rewrite E. reflexivity.
Qed.

Lemma isLeapYear_invalid_date_witness : isLeapYear 0 (mkDate None) = (false, mkDate None).
Proof. exact (isLeapYear_invalid_date 0 (mkDate None) eq_refl). Defined.



(** ** Arithmetic of the formatter *)

Lemma div_mod_nested d c m :
  0 < c -> 0 < m -> (d mod (c * m)) / c = (d / c) mod m.
Proof.
  intros Hc Hm. rewrite Z.rem_mul_r by lia.
  rewrite (Z.mul_comm c), Z.div_add by lia.
  rewrite Z.div_small by (apply Z.mod_pos_bound; lia). reflexivity.
Qed.

Lemma quot_rem_nested_nonneg d c m :
  0 <= d -> 0 < c -> 0 < m -> Z.quot (Z.rem d (c * m)) c = Z.rem (Z.quot d c) m.
Proof.
  intros Hd Hc Hm.
  rewrite (Z.rem_mod_nonneg d), (Z.quot_div_nonneg d) by lia.
  rewrite Z.rem_mod_nonneg by (try apply Z.div_pos; lia).
  rewrite Z.quot_div_nonneg by (try apply Z.mod_pos_bound; lia).
  apply div_mod_nested; assumption.
Qed.

Lemma quot_rem_nested d c m :
  0 < c -> 0 < m -> Z.quot (Z.rem d (c * m)) c = Z.rem (Z.quot d c) m.
Proof.
  intros Hc Hm. destruct (Z.le_gt_cases 0 d) as [Hd | Hd].
  - apply quot_rem_nested_nonneg; assumption.
  - pose proof (quot_rem_nested_nonneg (- d) c m ltac:(lia) Hc Hm) as E.
    rewrite Z.rem_opp_l, Z.quot_opp_l, Z.quot_opp_l, Z.rem_opp_l in E by lia.
    lia.
Qed.

Lemma Qtrunc_comp x y : (x == y)%Q -> Qtrunc x = Qtrunc y.
Proof.
  destruct x as [a b], y as [c d]. unfold Qeq, Qtrunc. cbn [Qnum Qden]. intros H.
  rewrite <- (Z.quot_mul_cancel_r a (Zpos b) (Zpos d)) by discriminate.
  rewrite <- (Z.quot_mul_cancel_r c (Zpos d) (Zpos b)) by discriminate.
  rewrite H. f_equal. apply Z.mul_comm.
Qed.

Lemma Qtrunc_inject z : Qtrunc (inject_Z z) = z.
Proof. unfold Qtrunc. cbn. apply Z.quot_1_r. Qed.

Lemma Qdiv_inject a (c : positive) : (inject_Z a / inject_Z (Zpos c) == a # c)%Q.
Proof. unfold Qeq, Qdiv, Qmult, Qinv, inject_Z. cbn. lia. Qed.

Lemma Qmake_div a (c m : positive) : ((a # c) / inject_Z (Zpos m) == a # (c * m))%Q.
Proof. unfold Qeq, Qdiv, Qmult, Qinv, inject_Z. cbn. lia. Qed.

Lemma Qrem_inject d (c m : positive) :
  (Qrem (inject_Z d / inject_Z (Zpos c)) (inject_Z (Zpos m))
   == Z.rem d (Zpos (c * m)) # c)%Q.
Proof.
  unfold Qrem.
  assert (E : Qtrunc (inject_Z d / inject_Z (Zpos c) / inject_Z (Zpos m))
              = Z.quot d (Zpos (c * m))).
  { change (Z.quot d (Zpos (c * m))) with (Qtrunc (d # (c * m))).
    apply Qtrunc_comp. rewrite Qdiv_inject. apply Qmake_div. }
  rewrite E, Qdiv_inject.
  pose proof (Z.quot_rem' d (Zpos (c * m))) as R.
  unfold Qeq, Qminus, Qplus, Qmult, Qopp, inject_Z. cbn [Qnum Qden].
  rewrite Pos2Z.inj_mul in *. nia.
Qed.

(** The value of an integer field: the remainder of the truncated
    quotient, whatever the sign of [d]. *)
Lemma field_value_int d (c m : positive) :
  (field_value (inject_Z d) (Zpos c) (Zpos m) 1
   == inject_Z (Z.rem (Z.quot d (Zpos c)) (Zpos m)))%Q.
Proof.
  unfold field_value.
  assert (E : Qtrunc (Qrem (inject_Z d / inject_Z (Z.pos c)) (inject_Z (Z.pos m)) * inject_Z 1)
              = Z.rem (Z.quot d (Zpos c)) (Zpos m)).
  { rewrite <- quot_rem_nested by lia.
    change (Z.pos c * Z.pos m) with (Zpos (c * m)).
    change (Z.quot (Z.rem d (Z.pos (c * m))) (Z.pos c))
      with (Qtrunc (Z.rem d (Zpos (c * m)) # c)).
    apply Qtrunc_comp. rewrite Qrem_inject. apply Qmult_1_r. }
  rewrite E. unfold Qeq, Qdiv, Qmult, Qinv, inject_Z. cbn. lia.
Qed.

(** The value of the field [ss.sss]: seconds and milliseconds within the
    minute, whatever the sign of [d]. *)
Lemma field_value_frac d :
  (field_value (inject_Z d) 1000 60 (10 ^ 6) == Z.rem d 60000 # 1000)%Q.
Proof.
  unfold field_value.
  assert (E : Qtrunc (Qrem (inject_Z d / inject_Z 1000) (inject_Z 60) * inject_Z (10 ^ 6))
              = Z.rem d 60000 * 1000).
  { rewrite <- (Qtrunc_inject (Z.rem d 60000 * 1000)).
    apply Qtrunc_comp. rewrite (Qrem_inject d 1000 60).
    change (Z.pos (1000 * 60)) with 60000.
    unfold Qeq, Qmult, inject_Z. cbn [Qnum Qden]. change (10 ^ 6) with 1000000. lia. }
  rewrite E. unfold Qeq, Qdiv, Qmult, Qinv, inject_Z. cbn. lia.
Qed.

(** ** The fields of the template *)

Lemma renders_eq r s : renders r s = true -> r = Ok s.
Proof.
  destruct r as [s' | e]; cbn; [ | discriminate ].
  intros H. apply String.eqb_eq in H. congruence.
Qed.

Lemma parseTimeCode_HH q :
  parseTimeCode (Fin q) "HH" =
  mkEncodedTime "HH" (Some hour) 2 None (Fin (field_value q 3600000 24 1)).
Proof. reflexivity. Qed.

Lemma parseTimeCode_mm q :
  parseTimeCode (Fin q) "mm" =
  mkEncodedTime "mm" (Some minute) 2 None (Fin (field_value q 60000 60 1)).
Proof. reflexivity. Qed.

Lemma parseTimeCode_ss q :
  parseTimeCode (Fin q) "ss.sss" =
  mkEncodedTime "ss.sss" (Some second) 6 (Some 2) (Fin (field_value q 1000 60 (10 ^ 6))).
Proof. reflexivity. Qed.

Lemma toString_int_field c ty q :
  toString (mkEncodedTime c ty 2 None (Fin q)) =
  (s <- toFixed (Fin q) 0 ;; Ok (padStart s 2)).
Proof. reflexivity. Qed.

Lemma toString_frac_field c ty q :
  toString (mkEncodedTime c ty 6 (Some 2) (Fin q)) =
  (s <- toFixed (Fin q) 3 ;; Ok (padStart s 6)).
Proof. reflexivity. Qed.

(** [toFixed] reads its Number as a rational, not as a fraction. *)
Lemma toFixed_comp q q' fd : (q == q')%Q -> toFixed (Fin q) fd = toFixed (Fin q') fd.
Proof.
  intros E. unfold toFixed.
  assert (E1 : Qle_bool 0 q = Qle_bool 0 q').
  { apply eq_true_iff_eq. rewrite !Qle_bool_iff, E. reflexivity. }
  assert (E2 : Qle_bool (inject_Z (10 ^ 21)) (Qabs q)
               = Qle_bool (inject_Z (10 ^ 21)) (Qabs q')).
  { apply eq_true_iff_eq. rewrite !Qle_bool_iff, E. reflexivity. }
  assert (E3 : Qfloor (Qabs q * inject_Z (10 ^ fd) + (1 # 2)) =
               Qfloor (Qabs q' * inject_Z (10 ^ fd) + (1 # 2))).
  { apply Qfloor_comp. rewrite E. reflexivity. }
  rewrite E1, E2, E3. reflexivity.
Qed.

Lemma int_field_checked : forallb int_field_check (Zrange 0 60) = true.
Proof. vm_compute. reflexivity. Qed.

Lemma frac_field_checked : forallb frac_field_check (Zrange 0 (Z.to_nat 60000)) = true.
Proof. vm_compute. reflexivity. Qed.

Lemma two_digits_avoid :
  forallb (fun r => avoids "m" (two_digits r) && avoids "s" (two_digits r)) (Zrange 0 60)
  = true.
Proof. vm_compute. reflexivity. Qed.

Lemma replace_skip c pat rep p s :
  avoids c p = true ->
  replace (p ++ s) (String c pat) rep = p ++ replace s (String c pat) rep.
Proof.
  induction p as [ | a p IH]; intros H; [ reflexivity | ].
  cbn [avoids] in H. apply andb_prop in H. destruct H as [Ha Hp].
  cbn [append]. rewrite <- (IH Hp).
  cbn [replace]. cbn [String.prefix].
  destruct (ascii_dec c a) as [-> | N].
  - rewrite Ascii.eqb_refl in Ha. discriminate Ha.
  - reflexivity.
Qed.

(** On the template, [formatTime] prints three fields and pastes them in,
    one after the other. *)
Lemma formatTime_template time :
  formatTime "HH:mm:ss.sss" time =
  (s1 <- toString (parseTimeCode time "HH") ;;
   s2 <- toString (parseTimeCode time "mm") ;;
   s3 <- toString (parseTimeCode time "ss.sss") ;;
   Ok (replace (replace (s1 ++ ":mm:ss.sss") "mm" s2) "ss.sss" s3)).
Proof.
  unfold formatTime.
  change (match_codes "HH:mm:ss.sss") with (Some ["HH"; "mm"; "ss.sss"]).
  cbn [map reduce].
  destruct (toString (parseTimeCode time "HH")) as [s1 | e]; [ | reflexivity ].
  cbn [bind].
  change (code (parseTimeCode time "HH")) with "HH".
  change (code (parseTimeCode time "mm")) with "mm".
  change (code (parseTimeCode time "ss.sss")) with "ss.sss".
  change (replace "HH:mm:ss.sss" "HH" s1) with (s1 ++ ":mm:ss.sss").
  destruct (toString (parseTimeCode time "mm")) as [s2 | e]; [ | reflexivity ].
  cbn [bind].
  destruct (toString (parseTimeCode time "ss.sss")) as [s3 | e]; reflexivity.
Qed.

Lemma toString_HH d :
  0 <= d ->
  toString (parseTimeCode (of_int d) "HH") = Ok (two_digits ((d / 3600000) mod 24)).
Proof.
  intros Hd. unfold of_int. rewrite parseTimeCode_HH, toString_int_field.
  rewrite (toFixed_comp _ _ 0 (field_value_int d 3600000 24)).
  rewrite Z.quot_div_nonneg, Z.rem_mod_nonneg by (try apply Z.div_pos; lia).
  apply renders_eq, (forallb_Zrange _ _ _ int_field_checked).
  pose proof (Z.mod_pos_bound (d / 3600000) 24). lia.
Qed.

Lemma toString_mm d :
  0 <= d ->
  toString (parseTimeCode (of_int d) "mm") = Ok (two_digits ((d / 60000) mod 60)).
Proof.
  intros Hd. unfold of_int. rewrite parseTimeCode_mm, toString_int_field.
  rewrite (toFixed_comp _ _ 0 (field_value_int d 60000 60)).
  rewrite Z.quot_div_nonneg, Z.rem_mod_nonneg by (try apply Z.div_pos; lia).
  apply renders_eq, (forallb_Zrange _ _ _ int_field_checked).
  pose proof (Z.mod_pos_bound (d / 60000) 60). lia.
Qed.

Lemma toString_ss d :
  0 <= d ->
  toString (parseTimeCode (of_int d) "ss.sss") =
  Ok (two_digits ((d / 1000) mod 60) ++ "." ++ three_digits (d mod 1000)).
Proof.
  intros Hd. unfold of_int. rewrite parseTimeCode_ss, toString_frac_field.
  rewrite (toFixed_comp _ _ 3 (field_value_frac d)).
  rewrite Z.rem_mod_nonneg by lia.
  replace ((d / 1000) mod 60) with ((d mod 60000) / 1000)
    by (apply (div_mod_nested d 1000 60); lia).
  replace (d mod 1000) with ((d mod 60000) mod 1000) by (zdiv; lia).
  apply renders_eq, (forallb_Zrange _ _ _ frac_field_checked).
  pose proof (Z.mod_pos_bound d 60000). lia.
Qed.

(** The output for a duration of [d >= 0] whole milliseconds. *)
Lemma formatTime_whole_ms d :
  0 <= d ->
  formatTime "HH:mm:ss.sss" (of_int d) =
  Ok (two_digits ((d / 3600000) mod 24) ++ ":" ++ two_digits ((d / 60000) mod 60) ++ ":"
      ++ two_digits ((d / 1000) mod 60) ++ "." ++ three_digits (d mod 1000)).
Proof.
  intros Hd.
  rewrite formatTime_template, toString_HH, toString_mm, toString_ss by assumption.
  cbn [bind]. f_equal.
  pose proof (forallb_Zrange _ _ _ two_digits_avoid ((d / 3600000) mod 24)
                ltac:(pose proof (Z.mod_pos_bound (d / 3600000) 24); lia)) as A1.
  pose proof (forallb_Zrange _ _ _ two_digits_avoid ((d / 60000) mod 60)
                ltac:(pose proof (Z.mod_pos_bound (d / 60000) 60); lia)) as A2.
  cbv beta in A1, A2.
  apply andb_prop in A1, A2. destruct A1 as [A1m A1s], A2 as [A2m A2s].
  set (h := two_digits ((d / 3600000) mod 24)) in *.
  set (m := two_digits ((d / 60000) mod 60)) in *.
  set (s := two_digits ((d / 1000) mod 60) ++ "." ++ three_digits (d mod 1000)).
  rewrite (replace_skip "m" "m" m h ":mm:ss.sss" A1m).
  change (replace ":mm:ss.sss" "mm" m) with (":" ++ m ++ ":ss.sss").
  rewrite (replace_skip "s" "s.sss" s h _ A1s).
  change (":" ++ m ++ ":ss.sss") with (String ":" (m ++ ":ss.sss")).
  change (replace (String ":" (m ++ ":ss.sss")) "ss.sss" s)
    with (String ":" (replace (m ++ ":ss.sss") "ss.sss" s)).
  rewrite (replace_skip "s" "s.sss" s m _ A2s).
  reflexivity.
Qed.

Lemma timeSpan_of_difference t d :
  timeSpanToString (mkDate (Some t)) (mkDate (Some (t + d)))
  = formatTime "HH:mm:ss.sss" (of_int d).
Proof.
  unfold timeSpanToString, getTime, num_sub, of_time. cbn [DateValue].
  replace (t + d - t) with d by lia. reflexivity.
Qed.

(** ** timeSpanToString: what it prints *)






(** C8: the five documented examples, from any start. *)
Theorem timeSpanToString_examples t :
  timeSpanToString (mkDate (Some t)) (mkDate (Some (t + 19210453))) = Ok "05:20:10.453" /\
  timeSpanToString (mkDate (Some t)) (mkDate (Some (t + 3600000))) = Ok "01:00:00.000" /\
  timeSpanToString (mkDate (Some t)) (mkDate (Some (t + 1800000))) = Ok "00:30:00.000" /\
  timeSpanToString (mkDate (Some t)) (mkDate (Some (t + 20000))) = Ok "00:00:20.000" /\
  timeSpanToString (mkDate (Some t)) (mkDate (Some (t + 250))) = Ok "00:00:00.250".
Proof. rewrite !timeSpan_of_difference. vm_compute. auto 6. Qed.

Lemma toFixed_total x fd : 0 <= fd <= 100 -> exists s, toFixed x fd = Ok s.
Proof.
  intros H. unfold toFixed.
  destruct (Z.ltb_spec fd 0); [ lia | ]. destruct (Z.ltb_spec 100 fd); [ lia | ].
  cbn [orb]. destruct x as [ | q]; [ eexists; reflexivity | ].
  destruct (Qle_bool (inject_Z (10 ^ 21)) (Qabs q)); eexists; reflexivity.
Qed.

Lemma toString_template_total time :
  (exists s, toString (parseTimeCode time "HH") = Ok s) /\
  (exists s, toString (parseTimeCode time "mm") = Ok s) /\
  (exists s, toString (parseTimeCode time "ss.sss") = Ok s).
Proof.
  repeat split.
  - destruct (toFixed_total (value (parseTimeCode time "HH")) 0 ltac:(lia)) as [s E].
    exists (padStart s 2). unfold toString.
    change (floatPoint (parseTimeCode time "HH")) with (@None Z).
    cbv iota. rewrite E. reflexivity.
  - destruct (toFixed_total (value (parseTimeCode time "mm")) 0 ltac:(lia)) as [s E].
    exists (padStart s 2). unfold toString.
    change (floatPoint (parseTimeCode time "mm")) with (@None Z).
    cbv iota. rewrite E. reflexivity.
  - destruct (toFixed_total (value (parseTimeCode time "ss.sss")) 3 ltac:(lia)) as [s E].
    exists (padStart s 6). unfold toString.
    change (floatPoint (parseTimeCode time "ss.sss")) with (Some 2).
    change (length (parseTimeCode time "ss.sss")) with 6.
    cbn [truthy Z.eqb negb]. change (6 - 2 - 1) with 3. rewrite E. reflexivity.
Qed.

Lemma formatTime_template_total time : exists s, formatTime "HH:mm:ss.sss" time = Ok s.
Proof.
  destruct (toString_template_total time) as ([s1 E1] & [s2 E2] & [s3 E3]).
  rewrite formatTime_template, E1, E2, E3. eexists. reflexivity.
Qed.

(** C10: [timeSpanToString] returns a string for every pair of Dates,
    valid or not: the template has the three codes [HH], [mm] and
    [ss.sss], and each of them has a unit in [timeCodeDict]. *)
Theorem timeSpanToString_total startDate endDate :
  (exists s, timeSpanToString startDate endDate = Ok s) /\
  match_codes "HH:mm:ss.sss" = Some ["HH"; "mm"; "ss.sss"] /\
  (forall time, map (fun c => type (parseTimeCode time c)) ["HH"; "mm"; "ss.sss"]
                = [Some hour; Some minute; Some second]).
Proof.
  split; [ apply formatTime_template_total | ].
  split; reflexivity.
Qed.

(** ** angleBetweenClockHands *)

Lemma shifted_date tz now d t :
  getTime d = Some t ->
  Date_of_value (int_add (getTime d)
                   (int_mul (getTimezoneOffset tz (mkDate (Some now))) (Some 60000)))
  = mkDate (TimeClip (t + tz * 60000)).
Proof. intros E. rewrite E. reflexivity. Qed.

Lemma angle_unfold tz now d :
  angleBetweenClockHands tz now d =
  let dateObject := Date_of_value (int_add (getTime d)
                      (int_mul (getTimezoneOffset tz (mkDate (Some now))) (Some 60000))) in
  let hours := to_float (int_rem (getHours tz dateObject) (Some 12)) in
  let minutes := to_float (getMinutes tz dateObject) in
  degToRadians (delta (abs (0.5 * (60 * hours + minutes) - 6 * minutes)) 180)%float.
Proof. reflexivity. Qed.

(** Reading local fields of the instant shifted by the offset gives the
    UTC fields of the instant. *)
Lemma LocalTime_shift tz t : LocalTime tz (t + tz * 60000) = t.
Proof. unfold LocalTime, LocalTZA, msPerMinute. lia. Qed.

Lemma angle_of_valid tz now d t :
  getTime d = Some t -> in_range (t + tz * 60000) ->
  angleBetweenClockHands tz now d = clock_angle (HourFromTime t) (MinFromTime t).
Proof.
  intros E R. rewrite angle_unfold, (shifted_date tz now d t E), (TimeClip_in_range _ R).
  cbv zeta. unfold getHours, getMinutes. cbn [DateValue option_map int_rem].
  rewrite LocalTime_shift. reflexivity.
Qed.

Lemma clock_angle_checked :
  forallb (fun h => forallb (fun m => angle_in_range (clock_angle h m)) (Zrange 0 60))
          (Zrange 0 24) = true.
Proof. vm_compute. reflexivity. Qed.

Lemma HourFromTime_range t : 0 <= HourFromTime t < 24.
Proof. unfold HourFromTime. apply Z.mod_pos_bound. lia. Qed.

Lemma MinFromTime_range t : 0 <= MinFromTime t < 60.
Proof. unfold MinFromTime. apply Z.mod_pos_bound. lia. Qed.

Lemma clock_angle_bounds h m :
  0 <= h < 24 -> 0 <= m < 60 -> angle_in_range (clock_angle h m) = true.
Proof.
  intros Hh Hm.
  exact (forallb_Zrange _ _ _ (forallb_Zrange _ _ _ clock_angle_checked h Hh) m Hm).
Qed.



(** C5 (counterexample): at the last instant a Date can hold, on a host
    five hours west of Greenwich, the shifted Date is invalid and the
    result is NaN, which is not in [0, pi]. *)
Lemma angle_NaN_at_range_end :
  PrimFloat.is_nan (angleBetweenClockHands 300 0 (Date_of_value (Some maxTime))) = true /\
  angle_in_range (angleBetweenClockHands 300 0 (Date_of_value (Some maxTime))) = false.
Proof. vm_compute. auto. Qed.

(** C5 (amended): for every Date whose time value, shifted by the host's
    offset, is still a time value a Date can hold, the result is in
    [0, Math.PI]. *)
Theorem angle_bounds tz now d t :
  getTime d = Some t -> in_range (t + tz * 60000) ->
  angle_in_range (angleBetweenClockHands tz now d) = true.
Proof.
  intros E R. rewrite (angle_of_valid tz now d t E R).
  apply clock_angle_bounds; [ apply HourFromTime_range | apply MinFromTime_range ].
Qed.

Lemma angle_bounds_witness :
  angle_in_range (angleBetweenClockHands 300 1700000000000 (mkDate (Some 1459825200000)))
  = true.
Proof.
  apply (angle_bounds 300 1700000000000 (mkDate (Some 1459825200000)) 1459825200000 eq_refl).
  unfold in_range, maxTime. cbn. lia.
Defined.







(** ** The two parsers *)




(** ** timeSpanToString: further properties *)


(** X6: when one of the two Dates is invalid, [timeSpanToString] does
    not fail: it returns the string NaN:NaN:000NaN. *)
Theorem timeSpanToString_invalid_date startDate endDate :
  getTime startDate = None \/ getTime endDate = None ->
  timeSpanToString startDate endDate = Ok "NaN:NaN:000NaN".
Proof.
  intros H. unfold timeSpanToString.
  assert (E : num_sub (getTime endDate) (getTime startDate) = None).
  { destruct H as [-> | ->]; [ destruct (getTime endDate) | ]; reflexivity. }
  rewrite E. vm_compute. reflexivity.
Qed.

Lemma timeSpanToString_invalid_date_witness :
  timeSpanToString (mkDate None) (mkDate (Some 0)) = Ok "NaN:NaN:000NaN".
Proof.
  exact (timeSpanToString_invalid_date (mkDate None) (mkDate (Some 0)) (or_introl eq_refl)).
Defined.

Lemma append_not_empty s c : s ++ String c EmptyString <> EmptyString.
Proof. destruct s; discriminate. Qed.

Lemma runs_nil p : forall s cur,
  runs p cur s = [] <->
  cur = EmptyString /\ string_forallb (fun c => negb (p c)) s = true.
Proof.
  induction s as [ | a s IH]; intros cur; cbn [runs string_forallb].
  - destruct cur; cbn; intuition discriminate.
  - destruct (p a); cbn [negb andb].
    + rewrite IH. split; [ intros [E _]; destruct (append_not_empty _ _ E) | intros [_ E]; discriminate E ].
    + split.
      * intros H. apply app_eq_nil in H. destruct H as [H1 H2]. apply IH in H2.
        split; [ destruct cur; [ reflexivity | discriminate H1 ] | apply H2 ].
      * intros [-> H]. cbn [flush app]. apply IH. auto.
Qed.

Lemma match_codes_None s :
  match_codes s = None <-> string_forallb (fun c => negb (isCodeChar c)) s = true.
Proof.
  unfold match_codes. pose proof (runs_nil isCodeChar s EmptyString) as R.
  destruct (runs isCodeChar EmptyString s) as [ | x l].
  - split; [ intros _; apply R; reflexivity | reflexivity ].
  - split; [ discriminate | ].
    intros H. assert (C : x :: l = []) by (apply R; auto). discriminate C.
Qed.

Lemma toFixed_throws x fd e : toFixed x fd = Throw e -> e = RangeError.
Proof.
  unfold toFixed. destruct ((fd <? 0) || (100 <? fd)); [ congruence | ].
  destruct x as [ | q]; [ discriminate | ].
  destruct (Qle_bool (inject_Z (10 ^ 21)) (Qabs q)); discriminate.
Qed.

Lemma toString_throws this e : toString this = Throw e -> e = RangeError.
Proof.
  unfold toString.
  destruct (toFixed _ _) as [s | e'] eqn:E; cbn [bind]; [ discriminate | ].
  intros H. injection H as <-. exact (toFixed_throws _ _ _ E).
Qed.

Lemma reduce_throws data : forall (init : string) e,
  reduce (fun output timeObj =>
            s <- toString timeObj ;; Ok (replace output (code timeObj) s)) data init
  = Throw e -> e = RangeError.
Proof.
  induction data as [ | x rest IH]; intros init e; cbn [reduce]; [ discriminate | ].
  destruct (toString x) as [s | e'] eqn:E; cbn [bind].
  - apply IH.
  - intros H. injection H as <-. exact (toString_throws _ _ E).
Qed.

(** X7: [formatTime] throws a TypeError exactly on the formats that
    hold no word character and no dot, whatever the time. *)
Theorem formatTime_TypeError_iff format time :
  formatTime format time = Throw TypeError <->
  string_forallb (fun c => negb (isCodeChar c)) format = true.
Proof.
  rewrite <- match_codes_None. unfold formatTime.
  destruct (match_codes format) as [matches | ].
  - split; [ | discriminate ].
    intros H. apply reduce_throws in H. discriminate H.
  - split; reflexivity.
Qed.



(** X9: for a duration [d >= 0], the output has exactly 12
    characters. *)
Theorem timeSpanToString_width t d :
  0 <= d ->
  exists s, timeSpanToString (mkDate (Some t)) (mkDate (Some (t + d))) = Ok s /\
            String.length s = 12%nat.
Proof.
  intros Hd. rewrite timeSpan_of_difference, formatTime_whole_ms by assumption.
  eexists. split; [ reflexivity | ]. reflexivity.
Qed.

Lemma timeSpanToString_width_witness :
  exists s, timeSpanToString (mkDate (Some 5)) (mkDate (Some (5 + 250))) = Ok s /\
            String.length s = 12%nat.
Proof. apply (timeSpanToString_width 5 250). lia. Defined.

Lemma indexOf_range s c : -1 <= indexOf s c < Z.of_nat (String.length s).
Proof.
  induction s as [ | a s IH]; cbn [indexOf String.length]; [ lia | ].
  destruct (Ascii.eqb a c); [ lia | ].
  destruct (Z.eqb_spec (indexOf s c) (-1)); lia.
Qed.

Lemma parseTimeCode_length time c :
  length (parseTimeCode time c) = Z.of_nat (String.length c).
Proof. reflexivity. Qed.

Lemma parseTimeCode_floatPoint time c :
  floatPoint (parseTimeCode time c) =
  (if indexOf c "." =? -1 then None else Some (indexOf c ".")).
Proof. reflexivity. Qed.

Lemma toFixed_NaN fd : 0 <= fd <= 100 -> toFixed NaN fd = Ok "NaN".
Proof.
  intros H. unfold toFixed.
  destruct (Z.ltb_spec fd 0); [ lia | ]. destruct (Z.ltb_spec 100 fd); [ lia | ].
  reflexivity.
Qed.

(** X10: a code whose first word character is none of H, m and s has
    the value NaN, and is printed as NaN padded with zeros to the length
    of the code (codes of up to 100 characters): nothing is thrown. *)
Theorem unknown_unit_is_NaN time c :
  timeCodeDict (match_word c) = None ->
  value (parseTimeCode time c) = NaN /\
  ((String.length c <= 100)%nat ->
   toString (parseTimeCode time c) = Ok (padStart "NaN" (Z.of_nat (String.length c)))).
Proof.
  intros H.
  assert (V : value (parseTimeCode time c) = NaN).
  { unfold parseTimeCode. cbn [value]. rewrite H. cbn [timeCoefficient timeMax].
    destruct time; cbn [num_div num_rem]; destruct (truthy _); reflexivity. }
  split; [ exact V | ].
  intros L. unfold toString.
  rewrite V, parseTimeCode_length, parseTimeCode_floatPoint.
  pose proof (indexOf_range c ".") as R.
  destruct (Z.eqb_spec (indexOf c ".") (-1)) as [E | N].
  - rewrite toFixed_NaN by lia. reflexivity.
  - cbn [truthy]. destruct (Z.eqb_spec (indexOf c ".") 0) as [E0 | N0]; cbn [negb].
    + rewrite toFixed_NaN by lia. reflexivity.
    + rewrite toFixed_NaN by lia. reflexivity.
Qed.

Lemma unknown_unit_is_NaN_witness :
  value (parseTimeCode (of_int 19210453) "dd") = NaN /\
  ((String.length "dd" <= 100)%nat ->
   toString (parseTimeCode (of_int 19210453) "dd") = Ok "NaN").
Proof. exact (unknown_unit_is_NaN (of_int 19210453) "dd" eq_refl). Defined.

(** ** angleBetweenClockHands: further properties *)

Lemma clock_angle_check_all :
  forallb (fun h => forallb (clock_angle_check h) (Zrange 0 60)) (Zrange 0 24) = true.
Proof. vm_compute. reflexivity. Qed.

Lemma clock_angle_facts h m :
  0 <= h < 24 -> 0 <= m < 60 ->
  clock_angle h m = degToRadians (to_float (Some (half_degrees h m)) / 2)%float /\
  PrimFloat.eqb (clock_angle h m) 0%float = ((h mod 12 =? 0) && (m =? 0)) /\
  PrimFloat.eqb (clock_angle h m) Math_PI = ((h mod 12 =? 6) && (m =? 0)) /\
  PrimFloat.is_nan (clock_angle h m) = false.
Proof.
  intros Hh Hm.
  pose proof (forallb_Zrange _ _ _ (forallb_Zrange _ _ _ clock_angle_check_all h Hh) m Hm) as C.
  unfold clock_angle_check in C.
  apply andb_prop in C. destruct C as [C C4]. apply andb_prop in C. destruct C as [C C3].
  apply andb_prop in C. destruct C as [C1 C2].
  apply Leibniz.eqb_spec in C1. apply Bool.eqb_prop in C2, C3. apply negb_true_iff in C4.
  auto.
Qed.

Lemma angle_of_invalid tz now d t :
  getTime d = Some t -> ~ in_range (t + tz * 60000) ->
  PrimFloat.is_nan (angleBetweenClockHands tz now d) = true.
Proof.
  intros E R. rewrite angle_unfold, (shifted_date tz now d t E), (TimeClip_out_of_range _ R).
  reflexivity.
Qed.

Lemma angle_of_invalid_date tz now d :
  getTime d = None -> PrimFloat.is_nan (angleBetweenClockHands tz now d) = true.
Proof. intros E. rewrite angle_unfold. rewrite E. reflexivity. Qed.





(** X13: the result is NaN exactly when the Date is invalid or its time
    value shifted by the host's offset is not one a Date can hold. *)
Theorem angle_NaN_iff tz now d :
  PrimFloat.is_nan (angleBetweenClockHands tz now d) = true <->
  getTime d = None \/ exists t, getTime d = Some t /\ ~ in_range (t + tz * 60000).
Proof.
  split.
  - intros H. destruct (getTime d) as [t | ] eqn:E; [ right | left; reflexivity ].
    exists t. split; [ reflexivity | ]. intros R.
    rewrite (angle_of_valid tz now d t E R) in H.
    destruct (clock_angle_facts (HourFromTime t) (MinFromTime t)
                (HourFromTime_range t) (MinFromTime_range t)) as (_ & _ & _ & N).
    congruence.
  - intros [E | (t & E & R)].
    + apply angle_of_invalid_date, E.
    + exact (angle_of_invalid tz now d t E R).
Qed.



Lemma runs_invariant p : forall s cur,
  string_forallb p cur = true ->
  Forall (fun m => m <> EmptyString /\ string_forallb p m = true) (runs p cur s).
Proof.
  assert (F : forall cur, string_forallb p cur = true ->
              Forall (fun m => m <> EmptyString /\ string_forallb p m = true) (flush cur)).
  { intros [ | a cur] H; cbn; constructor; [ split; [ discriminate | exact H ] | constructor ]. }
  assert (A : forall cur a, string_forallb p cur = true -> p a = true ->
              string_forallb p (cur ++ String a EmptyString) = true).
  { induction cur as [ | b cur IH]; intros a H Ha; cbn in *.
    - rewrite Ha. reflexivity.
    - apply andb_prop in H. destruct H as [Hb H]. rewrite Hb. cbn. apply IH; assumption. }
  induction s as [ | a s IH]; intros cur H; cbn [runs].
  - apply F, H.
  - destruct (p a) eqn:Pa.
    + apply IH, A; assumption.
    + apply Forall_app. split; [ apply F, H | apply IH; reflexivity ].
Qed.

(** X15: the matches of the scan of a format are never empty strings
    and hold only word characters and dots; a scan that returns matches
    returns at least one. *)
Theorem match_codes_matches s matches :
  match_codes s = Some matches ->
  matches <> [] /\
  Forall (fun m => m <> EmptyString /\ string_forallb isCodeChar m = true) matches.
Proof.
  unfold match_codes. pose proof (runs_invariant isCodeChar s EmptyString eq_refl) as I.
  destruct (runs isCodeChar EmptyString s) as [ | x l]; [ discriminate | ].
  intros H. injection H as <-. split; [ discriminate | exact I ].
Qed.

Lemma match_codes_matches_witness :
  ["HH"; "mm"; "ss.sss"] <> [] /\
  Forall (fun m => m <> EmptyString /\ string_forallb isCodeChar m = true)
         ["HH"; "mm"; "ss.sss"].
Proof. exact (match_codes_matches "HH:mm:ss.sss" ["HH"; "mm"; "ss.sss"] eq_refl). Defined.
